(** * StatsConn: the instrumented, read-gated wrapper around a topo [Conn]

    Shallow embedding of [go/vt/topo/stats_conn.go].

    Every method of [StatsConn] is a straight-line Go function that talks to
    four outside objects: the wall clock, the shared read semaphore, the
    three process-wide stats sinks and the wrapped connection.  A method is
    embedded as a finite tree of such interactions ([prog]); [run] executes
    a tree against an arbitrary behaviour of the outside and yields the
    returned values, the final state and the sequence of interactions that
    took place. *)

From Stdlib Require Import ZArith Ascii String List Bool Lia.
From stdpp Require Import base gmap strings.
Import ListNotations.

Local Open Scope Z_scope.
Local Open Scope string_scope.

(** ** Types declared elsewhere in package [topo] *)

(** The interface and struct types that [stats_conn.go] only passes around
    ([context.Context], [topo.Version], [topo.DirEntry], ...) are not
    declared in this file of the repository; the development is parametric
    in them.  Interface values and pointers may be nil: the methods below
    use [option]. *)
Class TopoTypes : Type := {
  Ctx : Type;                     (* context.Context *)
  Version : Type;                 (* topo.Version, a non-nil value *)
  DirEntry : Type;                (* topo.DirEntry *)
  KVInfo : Type;                  (* topo.KVInfo *)
  LockDescriptor : Type;          (* topo.LockDescriptor, a non-nil value *)
  WatchData : Type;               (* topo.WatchData *)
  WatchDataChan : Type;           (* <-chan *WatchData, a non-nil channel *)
  WatchDataRecursive : Type;      (* topo.WatchDataRecursive *)
  WatchDataRecursiveChan : Type;  (* <-chan *WatchDataRecursive *)
  LeaderParticipation : Type      (* topo.LeaderParticipation, non-nil *)
}.

(** A Go slice: [None] is the nil slice. *)
Definition slice (A : Type) : Type := option (list A).

(** [time.Time] as an instant and [time.Duration] as a length, both counted
    in nanoseconds.  [time.Duration] is an int64; the only operation the
    wrapper performs on it is the comparison with zero. *)
Definition Time : Type := Z.
Definition Duration : Type := Z.

(** [LockType] of package topo. *)
Inductive LockType : Type := Blocking | NonBlocking | Named.

(** [vtrpc.Code]: only [Code_READ_ONLY] is named by the wrapper. *)
Inductive Code : Type :=
| Code_READ_ONLY
| Code_other (n : Z).

(** A Go [error] value: one built by [vterrors.Errorf], carrying a code and
    a formatted message, or any other error (a cancelled context, a failure
    of the backing store) told apart by its text. *)
Inductive error : Type :=
| VtError (code : Code) (msg : string)
| OtherError (msg : string).

(** [fmt.Sprintf] restricted to the verb [%s] with string operands, which is
    all the wrapper's format needs.  A verb without operand prints Go's
    marker for it. *)
Fixpoint Sprintf (format : string) (args : list string) : string :=
  match format with
  | EmptyString => EmptyString
  | String "%"%char (String "s"%char rest) =>
      match args with
      | a :: args' => a ++ Sprintf rest args'
      | [] => "%!s(MISSING)" ++ Sprintf rest []
      end
  | String c rest => String c (Sprintf rest args)
  end.

(** [vterrors.Errorf(code, format, args...)]. *)
Definition vterrors_Errorf (code : Code) (format : string) (args : list string) : error :=
  VtError code (Sprintf format args).

Definition readOnlyErrorStrFormat : string :=
  "cannot perform %s on %s as the topology server connection is read-only".

(** ** The outside objects and the interactions with them *)

(** A [*semaphore.Weighted] and a [Conn] interface value are references to
    objects that live outside the wrapper and may be shared. *)
Definition SemRef : Type := nat.
Definition ConnRef : Type := nat.

Section WithTypes.
Context `{TT : TopoTypes}.

(** The method set of the [topo.Conn] interface, indexed by what each call
    returns.  Go returns result and error side by side and the wrapper
    forwards both, so a call answers with a tuple, not with a sum. *)
Inductive ConnCall : Type -> Type :=
| conn_ListDir (ctx : Ctx) (dirPath : string) (full : bool)
    : ConnCall (slice DirEntry * option error)
| conn_Create (ctx : Ctx) (filePath : string) (contents : slice Byte.byte)
    : ConnCall (option Version * option error)
| conn_Update (ctx : Ctx) (filePath : string) (contents : slice Byte.byte)
              (version : option Version)
    : ConnCall (option Version * option error)
| conn_Get (ctx : Ctx) (filePath : string)
    : ConnCall (slice Byte.byte * option Version * option error)
| conn_GetVersion (ctx : Ctx) (filePath : string) (version : Z)
    : ConnCall (slice Byte.byte * option error)
| conn_List (ctx : Ctx) (filePathPrefix : string)
    : ConnCall (slice KVInfo * option error)
| conn_Delete (ctx : Ctx) (filePath : string) (version : option Version)
    : ConnCall (option error)
| conn_Lock (ctx : Ctx) (dirPath contents : string)
    : ConnCall (option LockDescriptor * option error)
| conn_LockWithTTL (ctx : Ctx) (dirPath contents : string) (ttl : Duration)
    : ConnCall (option LockDescriptor * option error)
| conn_LockName (ctx : Ctx) (dirPath contents : string)
    : ConnCall (option LockDescriptor * option error)
| conn_TryLock (ctx : Ctx) (dirPath contents : string)
    : ConnCall (option LockDescriptor * option error)
| conn_Watch (ctx : Ctx) (filePath : string)
    : ConnCall (option WatchData * option WatchDataChan * option error)
| conn_WatchRecursive (ctx : Ctx) (path : string)
    : ConnCall (slice (option WatchDataRecursive)
                * option WatchDataRecursiveChan * option error)
| conn_NewLeaderParticipation (name id : string)
    : ConnCall (option LeaderParticipation * option error)
| conn_Close : ConnCall unit.

(** One interaction of the wrapper with the outside, indexed by the type of
    the answer. *)
Inductive Event : Type -> Type :=
| time_Now : Event Time
| sem_Acquire (s : SemRef) (ctx : Ctx) (n : Z) : Event (option error)
| sem_Release (s : SemRef) (n : Z) : Event unit
| ReadWaitTimings_Record (names : list string) (startTime : Time) : Event unit
| Timings_Record (names : list string) (startTime : Time) : Event unit
| Errors_Add (names : list string) (value : Z) : Event unit
| conn_call {R : Type} (c : ConnRef) (m : ConnCall R) : Event R.

(** A method body: it returns, or performs an interaction and goes on with
    the answer. *)
Inductive prog (R : Type) : Type :=
| Ret (r : R)
| Vis {A : Type} (e : Event A) (k : A -> prog R).

Arguments Ret {R} r.
Arguments Vis {R A} e k.

Fixpoint bind {A B : Type} (m : prog A) (f : A -> prog B) : prog B :=
  match m with
  | Ret a => f a
  | Vis e k => Vis e (fun x => bind (k x) f)
  end.

Definition trigger {A : Type} (e : Event A) : prog A := Vis e Ret.

(** [defer d] in front of [body]: the deferred call runs once the rest of
    the function has fixed its return values.  Nesting gives Go's order,
    last deferred first. *)
Definition defer {R : Type} (d : prog unit) (body : prog R) : prog R :=
  bind body (fun r => bind d (fun _ => Ret r)).

End WithTypes.

Arguments Ret {TT R} r.
Arguments Vis {TT R A} e k.

Notation "x <- m ;; k" := (bind m (fun x => k))
  (at level 62, m at next level, right associativity).
Notation "'call' m ;; k" := (bind m (fun _ => k))
  (at level 62, m at next level, right associativity).

(** ** The wrapper *)

(** [type StatsConn struct].  The Go methods have a pointer receiver;
    [SetReadOnly], the only one that writes a field, returns the updated
    struct. *)
Record StatsConn : Type := mkStatsConn {
  cell : string;
  conn : ConnRef;
  readOnly : bool;
  readSem : SemRef
}.

Definition NewStatsConn (cell : string) (conn : ConnRef) (readSem : SemRef) : StatsConn :=
  {| cell := cell; conn := conn; readOnly := false; readSem := readSem |}.

Definition SetReadOnly (st : StatsConn) (readOnly' : bool) : StatsConn :=
  {| cell := cell st; conn := conn st; readOnly := readOnly'; readSem := readSem st |}.

Definition IsReadOnly (st : StatsConn) : bool := readOnly st.

Section Methods.
Context `{TT : TopoTypes}.

(** [if err != nil { topoStatsConnErrors.Add(statsKey, int64(1)); return ... }
     return ...]: both returns hand back the same values. *)
Definition count_error {R : Type} (statsKey : list string) (err : option error)
    (ret : R) : prog R :=
  match err with
  | Some _ => call trigger (Errors_Add statsKey 1) ;; Ret ret
  | None => Ret ret
  end.

Definition ListDir (st : StatsConn) (ctx : Ctx) (dirPath : string) (full : bool)
    : prog (slice DirEntry * option error) :=
  startTime <- trigger time_Now ;;
  let statsKey := ["ListDir"; cell st] in
  err <- trigger (sem_Acquire (readSem st) ctx 1) ;;
  match err with
  | Some _ => Ret (None, err)
  | None =>
      defer (trigger (sem_Release (readSem st) 1)) (
      call trigger (ReadWaitTimings_Record statsKey startTime) ;;
      startTime <- trigger time_Now ;;
      defer (trigger (Timings_Record statsKey startTime)) (
      answer <- trigger (conn_call (conn st) (conn_ListDir ctx dirPath full)) ;;
      let '(res, err) := answer in
      count_error statsKey err (res, err)))
  end.

Definition Create (st : StatsConn) (ctx : Ctx) (filePath : string)
    (contents : slice Byte.byte) : prog (option Version * option error) :=
  let statsKey := ["Create"; cell st] in
  if readOnly st then
    Ret (None, Some (vterrors_Errorf Code_READ_ONLY readOnlyErrorStrFormat
                       [nth 0 statsKey ""; filePath]))
  else
    startTime <- trigger time_Now ;;
    defer (trigger (Timings_Record statsKey startTime)) (
    answer <- trigger (conn_call (conn st) (conn_Create ctx filePath contents)) ;;
    let '(res, err) := answer in
    count_error statsKey err (res, err)).

Definition Update (st : StatsConn) (ctx : Ctx) (filePath : string)
    (contents : slice Byte.byte) (version : option Version)
    : prog (option Version * option error) :=
  let statsKey := ["Update"; cell st] in
  if readOnly st then
    Ret (None, Some (vterrors_Errorf Code_READ_ONLY readOnlyErrorStrFormat
                       [nth 0 statsKey ""; filePath]))
  else
    startTime <- trigger time_Now ;;
    defer (trigger (Timings_Record statsKey startTime)) (
    answer <- trigger (conn_call (conn st)
                              (conn_Update ctx filePath contents version)) ;;
    let '(res, err) := answer in
    count_error statsKey err (res, err)).

Definition Get (st : StatsConn) (ctx : Ctx) (filePath : string)
    : prog (slice Byte.byte * option Version * option error) :=
  startTime <- trigger time_Now ;;
  let statsKey := ["Get"; cell st] in
  err <- trigger (sem_Acquire (readSem st) ctx 1) ;;
  match err with
  | Some _ => Ret (None, None, err)
  | None =>
      defer (trigger (sem_Release (readSem st) 1)) (
      call trigger (ReadWaitTimings_Record statsKey startTime) ;;
      startTime <- trigger time_Now ;;
      defer (trigger (Timings_Record statsKey startTime)) (
      answer <- trigger (conn_call (conn st) (conn_Get ctx filePath)) ;;
      let '(bytes, version, err) := answer in
      count_error statsKey err (bytes, version, err)))
  end.

Definition GetVersion (st : StatsConn) (ctx : Ctx) (filePath : string) (version : Z)
    : prog (slice Byte.byte * option error) :=
  startTime <- trigger time_Now ;;
  let statsKey := ["GetVersion"; cell st] in
  err <- trigger (sem_Acquire (readSem st) ctx 1) ;;
  match err with
  | Some _ => Ret (None, err)
  | None =>
      defer (trigger (sem_Release (readSem st) 1)) (
      call trigger (ReadWaitTimings_Record statsKey startTime) ;;
      startTime <- trigger time_Now ;;
      defer (trigger (Timings_Record statsKey startTime)) (
      answer <- trigger (conn_call (conn st)
                                  (conn_GetVersion ctx filePath version)) ;;
      let '(bytes, err) := answer in
      count_error statsKey err (bytes, err)))
  end.

Definition List (st : StatsConn) (ctx : Ctx) (filePathPrefix : string)
    : prog (slice KVInfo * option error) :=
  startTime <- trigger time_Now ;;
  let statsKey := ["List"; cell st] in
  err <- trigger (sem_Acquire (readSem st) ctx 1) ;;
  match err with
  | Some _ => Ret (None, err)
  | None =>
      defer (trigger (sem_Release (readSem st) 1)) (
      call trigger (ReadWaitTimings_Record statsKey startTime) ;;
      startTime <- trigger time_Now ;;
      defer (trigger (Timings_Record statsKey startTime)) (
      answer <- trigger (conn_call (conn st) (conn_List ctx filePathPrefix)) ;;
      let '(bytes, err) := answer in
      count_error statsKey err (bytes, err)))
  end.

Definition Delete (st : StatsConn) (ctx : Ctx) (filePath : string)
    (version : option Version) : prog (option error) :=
  let statsKey := ["Delete"; cell st] in
  if readOnly st then
    Ret (Some (vterrors_Errorf Code_READ_ONLY readOnlyErrorStrFormat
                 [nth 0 statsKey ""; filePath]))
  else
    startTime <- trigger time_Now ;;
    defer (trigger (Timings_Record statsKey startTime)) (
    err <- trigger (conn_call (conn st) (conn_Delete ctx filePath version)) ;;
    count_error statsKey err err).

(** The first [switch] of [internalLock]: the name under which the lock
    call is reported.  The cases are tried in order. *)
Definition lockStatsName (lockType : LockType) (ttl : Duration) : string :=
  match lockType with
  | Named => "LockName"
  | _ => if negb (Z.eqb ttl 0) then "LockWithTTL" else "Lock"
  end.

(** The second [switch] of [internalLock]: the call made on the wrapped
    connection. *)
Definition lockDispatch (ctx : Ctx) (dirPath contents : string)
    (lockType : LockType) (ttl : Duration)
    : ConnCall (option LockDescriptor * option error) :=
  match lockType with
  | NonBlocking => conn_TryLock ctx dirPath contents
  | Named => conn_LockName ctx dirPath contents
  | _ =>
      if negb (Z.eqb ttl 0) then conn_LockWithTTL ctx dirPath contents ttl
      else conn_Lock ctx dirPath contents
  end.

Definition internalLock (st : StatsConn) (ctx : Ctx) (dirPath contents : string)
    (lockType : LockType) (ttl : Duration)
    : prog (option LockDescriptor * option error) :=
  let statsKey := [lockStatsName lockType ttl; cell st] in
  if readOnly st then
    Ret (None, Some (vterrors_Errorf Code_READ_ONLY readOnlyErrorStrFormat
                       [nth 0 statsKey ""; dirPath]))
  else
    startTime <- trigger time_Now ;;
    defer (trigger (Timings_Record statsKey startTime)) (
    answer <- trigger (conn_call (conn st)
                              (lockDispatch ctx dirPath contents lockType ttl)) ;;
    let '(res, err) := answer in
    count_error statsKey err (res, err)).

Definition Lock (st : StatsConn) (ctx : Ctx) (dirPath contents : string) :=
  internalLock st ctx dirPath contents Blocking 0.

Definition LockWithTTL (st : StatsConn) (ctx : Ctx) (dirPath contents : string)
    (ttl : Duration) :=
  internalLock st ctx dirPath contents Blocking ttl.

Definition LockName (st : StatsConn) (ctx : Ctx) (dirPath contents : string) :=
  internalLock st ctx dirPath contents Named 0.

Definition TryLock (st : StatsConn) (ctx : Ctx) (dirPath contents : string) :=
  internalLock st ctx dirPath contents NonBlocking 0.

Definition Watch (st : StatsConn) (ctx : Ctx) (filePath : string)
    : prog (option WatchData * option WatchDataChan * option error) :=
  startTime <- trigger time_Now ;;
  let statsKey := ["Watch"; cell st] in
  defer (trigger (Timings_Record statsKey startTime)) (
  trigger (conn_call (conn st) (conn_Watch ctx filePath))).

Definition WatchRecursive (st : StatsConn) (ctx : Ctx) (path : string)
    : prog (slice (option WatchDataRecursive)
            * option WatchDataRecursiveChan * option error) :=
  startTime <- trigger time_Now ;;
  let statsKey := ["WatchRecursive"; cell st] in
  defer (trigger (Timings_Record statsKey startTime)) (
  trigger (conn_call (conn st) (conn_WatchRecursive ctx path))).

Definition NewLeaderParticipation (st : StatsConn) (name id : string)
    : prog (option LeaderParticipation * option error) :=
  startTime <- trigger time_Now ;;
  let statsKey := ["NewLeaderParticipation"; cell st] in
  defer (trigger (Timings_Record statsKey startTime)) (
  answer <- trigger (conn_call (conn st) (conn_NewLeaderParticipation name id)) ;;
  let '(res, err) := answer in
  count_error statsKey err (res, err)).

Definition Close (st : StatsConn) : prog unit :=
  startTime <- trigger time_Now ;;
  let statsKey := ["Close"; cell st] in
  defer (trigger (Timings_Record statsKey startTime)) (
  trigger (conn_call (conn st) conn_Close)).

(** The file asserts that a StatsConn pointer is a [Conn]: the wrapper
    answers every call of the interface, by the method of that name. *)
Definition invoke (st : StatsConn) {R : Type} (m : ConnCall R) : prog R :=
  match m in ConnCall R return prog R with
  | conn_ListDir ctx dirPath full => ListDir st ctx dirPath full
  | conn_Create ctx filePath contents => Create st ctx filePath contents
  | conn_Update ctx filePath contents version => Update st ctx filePath contents version
  | conn_Get ctx filePath => Get st ctx filePath
  | conn_GetVersion ctx filePath version => GetVersion st ctx filePath version
  | conn_List ctx filePathPrefix => List st ctx filePathPrefix
  | conn_Delete ctx filePath version => Delete st ctx filePath version
  | conn_Lock ctx dirPath contents => Lock st ctx dirPath contents
  | conn_LockWithTTL ctx dirPath contents ttl => LockWithTTL st ctx dirPath contents ttl
  | conn_LockName ctx dirPath contents => LockName st ctx dirPath contents
  | conn_TryLock ctx dirPath contents => TryLock st ctx dirPath contents
  | conn_Watch ctx filePath => Watch st ctx filePath
  | conn_WatchRecursive ctx path => WatchRecursive st ctx path
  | conn_NewLeaderParticipation name id => NewLeaderParticipation st name id
  | conn_Close => Close st
  end.

End Methods.


(** ** Running a method against the outside *)

(** Modelled from the spec: the metrics sink (package [go/stats], not part
    of these sources) "accepts (operation, locality)-keyed duration samples
    and error counts".  A timing sink is the sequence of samples recorded so
    far, oldest first; the error sink maps a key to its running count. *)
Definition Timings : Type := list (list string * Duration).

Definition counter (m : gmap (list string) Z) (names : list string) : Z :=
  default 0 (m !! names).

Definition counters_Add (m : gmap (list string) Z) (names : list string) (value : Z)
    : gmap (list string) Z :=
  <[names := counter m names + value]> m.

(** What a method call can touch.  [outside] is everything the wrapper has
    no hand in (the wall clock, the backing store, the other users of the
    semaphores); [held] is the number of slots taken in each semaphore. *)
Record World (X : Type) : Type := mkWorld {
  outside : X;
  held : SemRef -> Z;
  topoStatsConnTimings : Timings;
  topoStatsConnErrors : gmap (list string) Z;
  topoStatsConnReadWaitTimings : Timings
}.

Arguments mkWorld {X}.
Arguments outside {X}.
Arguments held {X}.
Arguments topoStatsConnTimings {X}.
Arguments topoStatsConnErrors {X}.
Arguments topoStatsConnReadWaitTimings {X}.

Section Run.
Context `{TT : TopoTypes} {X : Type}.

(** The behaviour of the outside, left arbitrary: what the clock shows, how
    a call on a wrapped connection answers, and whether a wait on a
    semaphore ends with a slot ([None], Go's nil error) or with the error of
    the caller's context.  [golang.org/x/sync/semaphore] is a dependency;
    its queueing is not modelled, only that a granted [Acquire] holds [n]
    more slots and [Release] holds [n] fewer. *)
Record Outside : Type := mkOutside {
  wall_clock : X -> Time * X;
  acquire_outcome : SemRef -> Ctx -> Z -> X -> option error * X;
  conn_answer : forall R : Type, ConnRef -> ConnCall R -> X -> R * X
}.

Definition set_outside (w : World X) (x : X) : World X :=
  mkWorld x (held w) (topoStatsConnTimings w) (topoStatsConnErrors w)
          (topoStatsConnReadWaitTimings w).

Definition set_held (w : World X) (s : SemRef) (v : Z) : World X :=
  mkWorld (outside w) (fun s' => if Nat.eqb s' s then v else held w s')
          (topoStatsConnTimings w)
          (topoStatsConnErrors w) (topoStatsConnReadWaitTimings w).

(** The effect of one interaction.  [Record(names, startTime)] stores the
    time elapsed since [startTime], so it reads the clock.  Go's [Release]
    panics when more is released than is held; the wrapper only gives back
    the slot it was granted, so the count is simply lowered. *)
Definition handle (env : Outside) {A : Type} (e : Event A) (w : World X)
    : A * World X :=
  match e in Event A return A * World X with
  | time_Now =>
      let (t, x) := wall_clock env (outside w) in (t, set_outside w x)
  | sem_Acquire s ctx n =>
      let (err, x) := acquire_outcome env s ctx n (outside w) in
      match err with
      | None => (None, set_held (set_outside w x) s (held w s + n))
      | Some _ => (err, set_outside w x)
      end
  | sem_Release s n => (tt, set_held w s (held w s - n))
  | ReadWaitTimings_Record names startTime =>
      let (t, x) := wall_clock env (outside w) in
      (tt, mkWorld x (held w) (topoStatsConnTimings w) (topoStatsConnErrors w)
                   (topoStatsConnReadWaitTimings w ++ [(names, t - startTime)])%list)
  | Timings_Record names startTime =>
      let (t, x) := wall_clock env (outside w) in
      (tt, mkWorld x (held w) (topoStatsConnTimings w ++ [(names, t - startTime)])%list
                   (topoStatsConnErrors w) (topoStatsConnReadWaitTimings w))
  | Errors_Add names value =>
      (tt, mkWorld (outside w) (held w) (topoStatsConnTimings w)
                   (counters_Add (topoStatsConnErrors w) names value)
                   (topoStatsConnReadWaitTimings w))
  | conn_call c m =>
      let (r, x) := conn_answer env _ c m (outside w) in (r, set_outside w x)
  end.

(** An interaction that took place, with its answer. *)
Inductive Occ : Type :=
| Occurred {A : Type} (e : Event A) (a : A).

(** What a call leaves behind: the values returned, the world after the
    call, and the interactions in the order they happened. *)
Record Outcome (R : Type) : Type := mkOutcome {
  returned : R;
  after : World X;
  trace : list Occ
}.

Arguments mkOutcome {R}.
Arguments returned {R}.
Arguments after {R}.
Arguments trace {R}.

Fixpoint run (env : Outside) {R : Type} (p : prog R) (w : World X) : Outcome R :=
  match p with
  | Ret r => mkOutcome r w []
  | Vis e k =>
      let (a, w1) := handle env e w in
      let o := run env (k a) w1 in
      mkOutcome (returned o) (after o) (Occurred e a :: trace o)
  end.

(** *** Readings of a trace *)

Definition is_conn_call (o : Occ) : bool :=
  match o with
  | Occurred (conn_call _ _) _ => true
  | _ => false
  end.

(** A sample or an increment handed to any of the three sinks. *)
Definition is_metric (o : Occ) : bool :=
  match o with
  | Occurred (ReadWaitTimings_Record _ _) _ => true
  | Occurred (Timings_Record _ _) _ => true
  | Occurred (Errors_Add _ _) _ => true
  | _ => false
  end.

(** The keys of the execution-duration samples, in order. *)
Definition duration_keys (tr : list Occ) : list (list string) :=
  flat_map (fun o => match o with
                     | Occurred (Timings_Record names _) _ => [names]
                     | _ => []
                     end) tr.

(** The error-count increments, in order: key and amount. *)
Definition error_adds (tr : list Occ) : list (list string * Z) :=
  flat_map (fun o => match o with
                     | Occurred (Errors_Add names value) _ => [(names, value)]
                     | _ => []
                     end) tr.

Definition conn_calls (tr : list Occ) : list Occ := List.filter is_conn_call tr.

End Run.

Arguments Outside {TT} X.
Arguments returned {TT X R} o.
Arguments after {TT X R} o.
Arguments trace {TT X R} o.
Arguments mkOutcome {TT X R}.

(** ** Vocabulary of the properties *)

Section Vocabulary.
Context `{TT : TopoTypes}.

(** The operations that write to the store or take a lock. *)
Definition is_mutation {R : Type} (m : ConnCall R) : bool :=
  match m with
  | conn_Create _ _ _ | conn_Update _ _ _ _ | conn_Delete _ _ _
  | conn_Lock _ _ _ | conn_LockWithTTL _ _ _ _ | conn_LockName _ _ _
  | conn_TryLock _ _ _ => true
  | _ => false
  end.

(** The operations that read from the store. *)
Definition is_read {R : Type} (m : ConnCall R) : bool :=
  match m with
  | conn_ListDir _ _ _ | conn_Get _ _ | conn_GetVersion _ _ _ | conn_List _ _ => true
  | _ => false
  end.

(** The remaining, administrative operations. *)
Definition is_admin {R : Type} (m : ConnCall R) : bool :=
  match m with
  | conn_Watch _ _ | conn_WatchRecursive _ _ | conn_NewLeaderParticipation _ _
  | conn_Close => true
  | _ => false
  end.

(** The path (or, for an election, the name) an operation is aimed at. *)
Definition target_path {R : Type} (m : ConnCall R) : string :=
  match m with
  | conn_ListDir _ p _ | conn_Create _ p _ | conn_Update _ p _ _ | conn_Get _ p
  | conn_GetVersion _ p _ | conn_List _ p | conn_Delete _ p _ | conn_Lock _ p _
  | conn_LockWithTTL _ p _ _ | conn_LockName _ p _ | conn_TryLock _ p _
  | conn_Watch _ p | conn_WatchRecursive _ p | conn_NewLeaderParticipation p _ => p
  | conn_Close => ""
  end.

(** The operation name under which a call on the wrapper is reported: the
    method's own name, except in the lock family, where it is the one
    resolved from lock type and ttl. *)
Definition stats_label {R : Type} (m : ConnCall R) : string :=
  match m with
  | conn_ListDir _ _ _ => "ListDir"
  | conn_Create _ _ _ => "Create"
  | conn_Update _ _ _ _ => "Update"
  | conn_Get _ _ => "Get"
  | conn_GetVersion _ _ _ => "GetVersion"
  | conn_List _ _ => "List"
  | conn_Delete _ _ _ => "Delete"
  | conn_Lock _ _ _ => lockStatsName Blocking 0
  | conn_LockWithTTL _ _ _ ttl => lockStatsName Blocking ttl
  | conn_LockName _ _ _ => lockStatsName Named 0
  | conn_TryLock _ _ _ => lockStatsName NonBlocking 0
  | conn_Watch _ _ => "Watch"
  | conn_WatchRecursive _ _ => "WatchRecursive"
  | conn_NewLeaderParticipation _ _ => "NewLeaderParticipation"
  | conn_Close => "Close"
  end.

(** The error among the values an operation returns. *)
Definition result_error {R : Type} (m : ConnCall R) : R -> option error :=
  match m in ConnCall R return R -> option error with
  | conn_Get _ _ | conn_Watch _ _ | conn_WatchRecursive _ _ => fun r => snd r
  | conn_Delete _ _ _ => fun r => r
  | conn_Close => fun _ => None
  | _ => fun r => snd r
  end.

(** The values of a call that fails inside the wrapper: nil results next
    to the error. *)
Definition failed_with {R : Type} (m : ConnCall R) (e : error) : R :=
  match m in ConnCall R return R with
  | conn_Get _ _ | conn_Watch _ _ | conn_WatchRecursive _ _ => (None, None, Some e)
  | conn_Delete _ _ _ => Some e
  | conn_Close => tt
  | _ => (None, Some e)
  end.

(** The text of the read-only refusal, spelled out. *)
Definition read_only_message (op path : string) : string :=
  "cannot perform " ++ op ++ " on " ++ path
  ++ " as the topology server connection is read-only".

(** The operations whose failures the wrapper counts. *)
Definition counts_errors {R : Type} (m : ConnCall R) : bool :=
  match m with
  | conn_Watch _ _ | conn_WatchRecursive _ _ | conn_Close => false
  | _ => true
  end.

(** The call that is to reach the wrapped connection for a call on the
    wrapper: the same method with the same arguments; in the lock family,
    the one picked by lock type and ttl. *)
Definition delegate {R : Type} (m : ConnCall R) : ConnCall R :=
  match m in ConnCall R return ConnCall R with
  | conn_Lock ctx dirPath contents => lockDispatch ctx dirPath contents Blocking 0
  | conn_LockWithTTL ctx dirPath contents ttl =>
      lockDispatch ctx dirPath contents Blocking ttl
  | conn_LockName ctx dirPath contents => lockDispatch ctx dirPath contents Named 0
  | conn_TryLock ctx dirPath contents =>
      lockDispatch ctx dirPath contents NonBlocking 0
  | m' => m'
  end.

(** Gate and connection interactions of a trace, stripped of their
    arguments' detail: which semaphore, what weight, in which order. *)
Inductive GateStep : Type :=
| Granted (s : SemRef) (n : Z)
| Refused (s : SemRef) (n : Z) (e : error)
| Released (s : SemRef) (n : Z)
| Delegated (c : ConnRef).

Definition gate_view (tr : list Occ) : list GateStep :=
  flat_map (fun o => match o with
                     | Occurred (sem_Acquire s _ n) None => [Granted s n]
                     | Occurred (sem_Acquire s _ n) (Some e) => [Refused s n e]
                     | Occurred (sem_Release s n) _ => [Released s n]
                     | Occurred (conn_call c _) _ => [Delegated c]
                     | _ => []
                     end) tr.

End Vocabulary.

(** ** Sequences of calls *)

Section Sequences.
Context `{TT : TopoTypes} {X : Type}.

(** The keys of the read-wait samples of a trace, in order. *)
Definition readwait_keys (tr : list Occ) : list (list string) :=
  flat_map (fun o => match o with
                     | Occurred (ReadWaitTimings_Record names _) _ => [names]
                     | _ => []
                     end) tr.

(** A call on a wrapped connection that writes to the store or takes a
    lock. *)
Definition is_mutating_call (o : Occ) : bool :=
  match o with
  | Occurred (conn_call _ m) _ => is_mutation m
  | _ => false
  end.

(** One call made by a user of the package: a method of the [Conn]
    interface on some wrapper.  Wrappers of successive calls may differ, in
    their flag as in their fields. *)
Record Invocation : Type := mkInvocation {
  receiver : StatsConn;
  result_type : Type;
  method : ConnCall result_type
}.

(** Calls made one after the other, each on the world the one before left:
    the final world and the whole trace. *)
Fixpoint run_calls (env : Outside X) (cs : list Invocation) (w : World X)
    : World X * list Occ :=
  match cs with
  | [] => (w, [])
  | c :: cs' =>
      let o := run env (invoke (receiver c) (method c)) w in
      let (w', tr) := run_calls env cs' (after o) in
      (w', (trace o ++ tr)%list)
  end.

End Sequences.

(** ** A concrete setting to run the methods in *)

Module Demo.

Definition types : TopoTypes := {|
  Ctx := string;
  Version := Z;
  DirEntry := string;
  KVInfo := string;
  LockDescriptor := string;
  WatchData := string;
  WatchDataChan := nat;
  WatchDataRecursive := string;
  WatchDataRecursiveChan := nat;
  LeaderParticipation := string
|}.

Definition not_found : option error := Some (OtherError "node doesn't exist").
Definition would_block : option error := Some (OtherError "node already exists").
Definition canceled : error := OtherError "context canceled".

(** The bytes of "v1". *)
Definition v1 : slice Byte.byte := Some [Byte.x76; Byte.x31].

(** A store that holds "v1" at version 7 under "/a/b", knows no path
    "/missing", and has its locks taken by someone else. *)
Definition answer {R : Type} (m : @ConnCall types R) : R :=
  match m in ConnCall R return R with
  | conn_ListDir _ p _ =>
      if String.eqb p "/missing" then (None, not_found) else (Some ["b"], None)
  | conn_Create _ p _ => (Some 1, None)
  | conn_Update _ p _ _ =>
      if String.eqb p "/missing" then (None, not_found) else (Some 8, None)
  | conn_Get _ p =>
      if String.eqb p "/a/b" then (v1, Some 7, None) else (None, None, not_found)
  | conn_GetVersion _ p _ =>
      if String.eqb p "/a/b" then (v1, None) else (None, not_found)
  | conn_List _ p =>
      if String.eqb p "/missing" then (None, not_found) else (Some ["/a/b"], None)
  | conn_Delete _ p _ => if String.eqb p "/missing" then not_found else None
  | conn_Lock _ _ _ => (Some "lock-1", None)
  | conn_LockWithTTL _ _ _ _ => (Some "lock-2", None)
  | conn_LockName _ _ _ => (Some "lock-3", None)
  | conn_TryLock _ _ _ => (None, would_block)
  | conn_Watch _ p =>
      if String.eqb p "/missing" then (None, None, not_found)
      else (Some "v1", Some 1%nat, None)
  | conn_WatchRecursive _ p =>
      if String.eqb p "/missing" then (None, None, not_found)
      else (Some [Some "v1"], Some 2%nat, None)
  | conn_NewLeaderParticipation _ _ => (Some "candidate", None)
  | conn_Close => tt
  end.

(** The outside is a clock in nanoseconds: reading it takes one, a call on
    the connection takes ten.  A wait on a semaphore is granted unless the
    caller's context is the cancelled one. *)
Definition env : @Outside types Z :=
  @mkOutside types Z
    (fun x => (x, x + 1))
    (fun _ (ctx : string) _ x =>
       if String.eqb ctx "cancelled" then (Some canceled, x) else (None, x))
    (fun R _ m x => (answer m, x + 10)).

Definition st : StatsConn := NewStatsConn "zone1" 1%nat 2%nat.

(** The same wrapper switched to read-only. *)
Definition ro : StatsConn := SetReadOnly st true.

Definition w0 : World Z := mkWorld 0 (fun _ => 0) [] ∅ [].

(** Sample calls. *)
Definition create_ab : ConnCall _ := @conn_Create types "ctx" "/a/b" v1.
Definition get_ab : ConnCall _ := @conn_Get types "ctx" "/a/b".
Definition get_missing : ConnCall _ := @conn_Get types "ctx" "/missing".
Definition get_cancelled : ConnCall _ := @conn_Get types "cancelled" "/a/b".
Definition watch_missing : ConnCall _ := @conn_Watch types "ctx" "/missing".
Definition try_lock : ConnCall _ := @conn_TryLock types "ctx" "/locks/k" "me".

(** A user's afternoon: a read, a failing read, a refused read, a lock
    attempt on the read-only wrapper and a Watch. *)
Definition session : list (@Invocation types) :=
  [mkInvocation st _ get_ab; mkInvocation st _ get_missing;
   mkInvocation st _ get_cancelled; mkInvocation ro _ try_lock;
   mkInvocation ro _ watch_missing].

(** Calls on the read-only wrapper alone: writes, a lock, a read and a
    Watch. *)
Definition ro_session : list (@Invocation types) :=
  [mkInvocation ro _ create_ab; mkInvocation ro _ try_lock;
   mkInvocation ro _ get_ab; mkInvocation ro _ watch_missing].

(** A Watch on the unknown path, run on the read-write wrapper. *)
Definition failed_watch := run env (@Watch types st "ctx" "/missing") w0.

End Demo.

(** ** Properties *)

(** Running a method: unfold it, then ask the outside for each answer the
    run depends on and follow every branch. *)
Ltac ask_outside :=
  match goal with
  | |- context [wall_clock ?e ?x] =>
      let t := fresh "t" in
      let x' := fresh "x" in
      destruct (wall_clock e x) as [t x'] eqn:?
  | |- context [acquire_outcome ?e ?s ?c ?n ?x] =>
      let x' := fresh "x" in
      destruct (acquire_outcome e s c n x) as [[?|] x'] eqn:?
  | |- context [conn_answer ?e ?R ?c ?m ?x] =>
      let a := fresh "a" in
      let x' := fresh "x" in
      destruct (conn_answer e R c m x) as [a x'] eqn:?
  | |- context [let (_, _) := ?a in _] => is_var a; destruct a
  | |- context [count_error _ ?e _] => is_var e; destruct e
  end.

Ltac unfold_methods :=
  cbv [invoke ListDir Create Update Get GetVersion List Delete Lock LockWithTTL
       LockName TryLock internalLock Watch WatchRecursive NewLeaderParticipation
       Close].

Ltac run_method := unfold_methods; cbn; repeat (ask_outside; cbn).

Lemma read_only_message_format (op path : string) :
  Sprintf readOnlyErrorStrFormat [op; path] = read_only_message op path.
Proof. reflexivity. Qed.

Lemma held_restored (f : SemRef -> Z) (s s' : SemRef) (n : Z) :
  (if Nat.eqb s' s then (if Nat.eqb s s then f s + n else f s) - n
   else if Nat.eqb s' s then f s + n else f s') = f s'.
Proof.
  rewrite Nat.eqb_refl. destruct (Nat.eqb s' s) eqn:E; [|reflexivity].
  apply Nat.eqb_eq in E. subst s'. lia.
Qed.

Lemma counter_after_Add (m : gmap (list string) Z) (names : list string) (v : Z) :
  counter (counters_Add m names v) names = counter m names + v.
Proof. unfold counter, counters_Add. now rewrite lookup_insert_eq. Qed.

Section Properties.
Context `{TT : TopoTypes} {X : Type}.
Implicit Types (env : Outside X) (w : World X) (st : StatsConn).

(** C1. While the read-only flag is set, each of Create, Update, Delete,
    Lock, LockWithTTL, LockName and TryLock returns, next to nil results,
    the read-only error naming the reported operation and the target path;
    nothing is exchanged with the outside: the wrapped connection is not
    called, the semaphore is not touched, no sample or count is recorded,
    and the world is left as it was. *)
Theorem C1_read_only_rejects_mutations st env w (R : Type) (m : ConnCall R) :
  is_mutation m = true ->
  readOnly st = true ->
  let o := run env (invoke st m) w in
  returned o
    = failed_with m (VtError Code_READ_ONLY
                       (read_only_message (stats_label m) (target_path m)))
  /\ trace o = []
  /\ conn_calls (trace o) = []
  /\ gate_view (trace o) = []
  /\ List.filter is_metric (trace o) = []
  /\ after o = w.
Proof.
  intros Hm Hro.
  destruct m; simpl in Hm; try discriminate Hm;
    unfold_methods; rewrite Hro; cbn; repeat split; reflexivity.
Qed.

(** C2. In read-write mode [internalLock] reports under "LockName" for a
    named lock whatever the ttl, otherwise under "LockWithTTL" when the ttl
    is not zero and under "Lock" when it is; it calls TryLock of the wrapped
    connection for a non-blocking lock, LockName for a named one, and for a
    blocking one LockWithTTL when the ttl is not zero and Lock when it is.
    The public TryLock is reported under "Lock" and calls the wrapped
    TryLock. *)
Theorem C2_lock_label_and_routing st env w (ctx : Ctx) (dirPath contents : string)
    (lockType : LockType) (ttl : Duration) :
  readOnly st = false ->
  let o := run env (internalLock st ctx dirPath contents lockType ttl) w in
  let t := run env (TryLock st ctx dirPath contents) w in
  (lockType = Named -> duration_keys (trace o) = [["LockName"; cell st]])
  /\ (lockType <> Named -> ttl <> 0 ->
      duration_keys (trace o) = [["LockWithTTL"; cell st]])
  /\ (lockType <> Named -> ttl = 0 ->
      duration_keys (trace o) = [["Lock"; cell st]])
  /\ (lockType = NonBlocking ->
      conn_calls (trace o)
        = [Occurred (conn_call (conn st) (conn_TryLock ctx dirPath contents))
                    (returned o)])
  /\ (lockType = Named ->
      conn_calls (trace o)
        = [Occurred (conn_call (conn st) (conn_LockName ctx dirPath contents))
                    (returned o)])
  /\ (lockType = Blocking -> ttl <> 0 ->
      conn_calls (trace o)
        = [Occurred (conn_call (conn st) (conn_LockWithTTL ctx dirPath contents ttl))
                    (returned o)])
  /\ (lockType = Blocking -> ttl = 0 ->
      conn_calls (trace o)
        = [Occurred (conn_call (conn st) (conn_Lock ctx dirPath contents))
                    (returned o)])
  /\ duration_keys (trace t) = [["Lock"; cell st]]
  /\ conn_calls (trace t)
       = [Occurred (conn_call (conn st) (conn_TryLock ctx dirPath contents))
                   (returned t)].
Proof.
  intros Hrw o t; subst o t.
  unfold_methods; rewrite Hrw.
  destruct (Z.eqb_spec ttl 0) as [Hz | Hnz];
    destruct lockType; cbn;
    try (rewrite (proj2 (Z.eqb_neq ttl 0) Hnz); cbn);
    try (rewrite (proj2 (Z.eqb_eq ttl 0) Hz); cbn);
    repeat (ask_outside; cbn);
    repeat split; intros; first [reflexivity | congruence].
Qed.

(** C3. A call of ListDir, Get, GetVersion or List that reaches the wrapped
    connection takes one slot of the wrapper's semaphore before the
    delegated call and gives one slot back after it, whatever that call
    answers; the only other course is a refused wait, which takes nothing.
    Either way every semaphore holds as many slots after the call as
    before. *)
Theorem C3_read_takes_and_returns_one_slot st env w (R : Type) (m : ConnCall R) :
  is_read m = true ->
  let o := run env (invoke st m) w in
  (gate_view (trace o)
     = [Granted (readSem st) 1; Delegated (conn st); Released (readSem st) 1]
   \/ exists e, gate_view (trace o) = [Refused (readSem st) 1 e])
  /\ (conn_calls (trace o) <> [] ->
      gate_view (trace o)
        = [Granted (readSem st) 1; Delegated (conn st); Released (readSem st) 1])
  /\ forall s, held (after o) s = held w s.
Proof.
  intros Hm.
  destruct m; simpl in Hm; try discriminate Hm; run_method;
    (split; [first [left; reflexivity | right; eauto]
            | split; [first [reflexivity | intros Hc; now elim Hc]
                     | first [reflexivity | intros; apply held_restored]]]).
Qed.

(** C4. When the wait for a slot is refused with an error, a read
    operation returns that error next to nil results right after the
    refusal: the wrapped connection is not called, no slot is taken or
    given back, no sample or count reaches any sink. *)
Theorem C4_refused_read_returns_at_once st env w (R : Type) (m : ConnCall R)
    (s : SemRef) (n : Z) (e : error) :
  is_read m = true ->
  let o := run env (invoke st m) w in
  In (Refused s n e) (gate_view (trace o)) ->
  returned o = failed_with m e
  /\ gate_view (trace o) = [Refused (readSem st) 1 e]
  /\ conn_calls (trace o) = []
  /\ List.filter is_metric (trace o) = []
  /\ held (after o) = held w
  /\ topoStatsConnTimings (after o) = topoStatsConnTimings w
  /\ topoStatsConnErrors (after o) = topoStatsConnErrors w
  /\ topoStatsConnReadWaitTimings (after o) = topoStatsConnReadWaitTimings w.
Proof.
  intros Hm.
  destruct m; simpl in Hm; try discriminate Hm; run_method; intros Hin;
    simpl in Hin; intuition (try discriminate);
    match goal with H : Refused _ _ _ = Refused _ _ _ |- _ => inversion H; subst end;
    reflexivity.
Qed.

(** C5, as amended.  A call that reaches the wrapped connection records
    exactly one execution-duration sample, under the reported operation
    name and the wrapper's cell.  For every operation but Watch,
    WatchRecursive and Close, a non-nil error among the returned values
    comes with exactly one increment, by one, of the error count under the
    same key, and a nil error with none.  Watch, WatchRecursive and Close
    never touch the error count. *)
Theorem C5_one_duration_sample_and_counted_errors st env w (R : Type)
    (m : ConnCall R) :
  let o := run env (invoke st m) w in
  let key := [stats_label m; cell st] in
  conn_calls (trace o) <> [] ->
  duration_keys (trace o) = [key]
  /\ (exists d, topoStatsConnTimings (after o)
                = (topoStatsConnTimings w ++ [(key, d)])%list)
  /\ (counts_errors m = true -> result_error m (returned o) <> None ->
      error_adds (trace o) = [(key, 1)]
      /\ counter (topoStatsConnErrors (after o)) key
         = counter (topoStatsConnErrors w) key + 1)
  /\ (result_error m (returned o) = None ->
      error_adds (trace o) = []
      /\ topoStatsConnErrors (after o) = topoStatsConnErrors w)
  /\ (counts_errors m = false ->
      error_adds (trace o) = []
      /\ topoStatsConnErrors (after o) = topoStatsConnErrors w).
Proof.
  destruct m; unfold_methods; try (destruct (readOnly st)); cbn;
    repeat (ask_outside; cbn);
    intros Hc; try (now elim Hc);
    (split; [reflexivity
            | split; [eexists; reflexivity
                     | repeat split; intros; cbn in *;
                       first [reflexivity | congruence
                             | apply counter_after_Add]]]).
Qed.

(** C6. A call that reaches the wrapped connection makes exactly one call
    on it, the delegated one, and returns exactly the values that call
    answered: results and error are the answer itself. *)
Theorem C6_passthrough st env w (R : Type) (m : ConnCall R) :
  let o := run env (invoke st m) w in
  conn_calls (trace o) <> [] ->
  conn_calls (trace o)
    = [Occurred (conn_call (conn st) (delegate m)) (returned o)].
Proof.
  destruct m; unfold_methods; try (destruct (readOnly st)); cbn;
    repeat (ask_outside; cbn);
    intros Hc; try (now elim Hc); reflexivity.
Qed.

(** C7. Watch, WatchRecursive, NewLeaderParticipation and Close do not
    wait on or release any semaphore and leave every slot count as it was;
    each makes its own call on the wrapped connection and returns its
    answer; the method body, and so the whole run, is the same whether the
    read-only flag is set or not. *)
Theorem C7_admin_operations_ungated st env w (R : Type) (m : ConnCall R) :
  is_admin m = true ->
  let o := run env (invoke st m) w in
  gate_view (trace o) = [Delegated (conn st)]
  /\ held (after o) = held w
  /\ conn_calls (trace o) = [Occurred (conn_call (conn st) m) (returned o)]
  /\ (forall b : bool, invoke (SetReadOnly st b) m = invoke st m)
  /\ run env (invoke (SetReadOnly st true) m) w
     = run env (invoke (SetReadOnly st false) m) w.
Proof.
  intros Hm.
  destruct m; simpl in Hm; try discriminate Hm; run_method;
    repeat split; reflexivity.
Qed.

End Properties.

(** C8. SetReadOnly overwrites the flag and nothing else, and IsReadOnly
    reads the flag last written: setting true twice leaves true; false,
    true, false leaves false; cell, connection and semaphore stay. *)
Theorem C8_set_read_only (st : StatsConn) (b : bool) :
  IsReadOnly (SetReadOnly st b) = b
  /\ IsReadOnly (SetReadOnly (SetReadOnly st true) true) = true
  /\ IsReadOnly (SetReadOnly (SetReadOnly (SetReadOnly st false) true) false) = false
  /\ (forall b' : bool, SetReadOnly (SetReadOnly st b') b = SetReadOnly st b)
  /\ cell (SetReadOnly st b) = cell st
  /\ conn (SetReadOnly st b) = conn st
  /\ readSem (SetReadOnly st b) = readSem st.
Proof. repeat split. Qed.

Section ReadOnlyFlag.
Context `{TT : TopoTypes} {X : Type}.
Implicit Types (env : Outside X) (w : World X).

(** C9. A wrapper fresh from NewStatsConn is read-write, whatever cell,
    connection and semaphore it was given: IsReadOnly answers false and a
    mutation is not refused but delegated to the wrapped connection. *)
Theorem C9_new_wrapper_is_read_write (cell : string) (conn : ConnRef)
    (readSem : SemRef) env w (R : Type) (m : ConnCall R) :
  is_mutation m = true ->
  let st := NewStatsConn cell conn readSem in
  let o := run env (invoke st m) w in
  IsReadOnly st = false
  /\ conn_calls (trace o) = [Occurred (conn_call conn (delegate m)) (returned o)]
  /\ trace (run env (invoke (SetReadOnly st true) m) w) = [].
Proof.
  intros Hm.
  destruct m; simpl in Hm; try discriminate Hm; run_method;
    repeat split; reflexivity.
Qed.

(** C10. The read-only error of a lock variant names the resolved
    label: TryLock is refused as "Lock", never as "TryLock"; LockName as
    "LockName"; LockWithTTL with a ttl other than zero as "LockWithTTL". *)
Theorem C10_read_only_error_names_resolved_label (st : StatsConn) env w
    (ctx : Ctx) (dirPath contents : string) (ttl : Duration) :
  readOnly st = true ->
  ttl <> 0 ->
  returned (run env (TryLock st ctx dirPath contents) w)
    = (None, Some (VtError Code_READ_ONLY
         ("cannot perform Lock on " ++ dirPath
          ++ " as the topology server connection is read-only")))
  /\ snd (returned (run env (TryLock st ctx dirPath contents) w))
     <> Some (VtError Code_READ_ONLY
         ("cannot perform TryLock on " ++ dirPath
          ++ " as the topology server connection is read-only"))
  /\ returned (run env (LockName st ctx dirPath contents) w)
     = (None, Some (VtError Code_READ_ONLY
         ("cannot perform LockName on " ++ dirPath
          ++ " as the topology server connection is read-only")))
  /\ returned (run env (LockWithTTL st ctx dirPath contents ttl) w)
     = (None, Some (VtError Code_READ_ONLY
         ("cannot perform LockWithTTL on " ++ dirPath
          ++ " as the topology server connection is read-only"))).
Proof.
  intros Hro Hnz.
  unfold_methods; rewrite Hro; cbn.
  rewrite (proj2 (Z.eqb_neq ttl 0) Hnz); cbn.
  repeat split; try reflexivity.
  intros H; discriminate H.
Qed.

End ReadOnlyFlag.

(** ** The properties at work in the concrete setting *)

(** A Get that finds its node: the wait for the slot is timed, then the
    call; the deferred calls run last, the duration sample before the
    release. *)
Example get_ab_trace :
  trace (run Demo.env (invoke Demo.st Demo.get_ab) Demo.w0)
  = [Occurred time_Now 0;
     Occurred (sem_Acquire 2%nat ("ctx" : @Ctx Demo.types) 1) None;
     Occurred (ReadWaitTimings_Record ["Get"; "zone1"] 0) tt;
     Occurred time_Now 2;
     Occurred (conn_call 1%nat Demo.get_ab) (Demo.v1, Some 7, None);
     Occurred (Timings_Record ["Get"; "zone1"] 2) tt;
     Occurred (sem_Release 2%nat 1) tt].
Proof. reflexivity. Qed.

(** A Get that fails in the store: the error is counted before the
    deferred calls run, and the sinks end up with one wait sample, one
    duration sample and a count of one. *)
Example get_missing_sinks :
  let o := run Demo.env (invoke Demo.st Demo.get_missing) Demo.w0 in
  error_adds (trace o) = [(["Get"; "zone1"], 1)]
  /\ topoStatsConnReadWaitTimings (after o) = [(["Get"; "zone1"], 1)]
  /\ topoStatsConnTimings (after o) = [(["Get"; "zone1"], 11)]
  /\ counter (topoStatsConnErrors (after o)) ["Get"; "zone1"] = 1
  /\ returned o = (None, None, Demo.not_found).
Proof. vm_compute. repeat split. Qed.

(** A refused TryLock is delegated to the non-blocking call and counted as
    an error of "Lock". *)
Example try_lock_would_block :
  let o := run Demo.env (invoke Demo.st Demo.try_lock) Demo.w0 in
  returned o = (None, Demo.would_block)
  /\ gate_view (trace o) = [Delegated 1%nat]
  /\ duration_keys (trace o) = [["Lock"; "zone1"]]
  /\ error_adds (trace o) = [(["Lock"; "zone1"], 1)].
Proof. vm_compute. repeat split. Qed.

Lemma C1_read_only_create_refused :
  is_mutation Demo.create_ab = true
  /\ readOnly Demo.ro = true
  /\ returned (run Demo.env (invoke Demo.ro Demo.create_ab) Demo.w0)
     = (None, Some (VtError Code_READ_ONLY
          "cannot perform Create on /a/b as the topology server connection is read-only")).
Proof.
  split; [reflexivity | split; [reflexivity | ]].
  exact (proj1 (C1_read_only_rejects_mutations Demo.ro Demo.env Demo.w0 _
                  Demo.create_ab eq_refl eq_refl)).
Defined.

Lemma C2_try_lock_reported_as_lock :
  readOnly Demo.st = false
  /\ duration_keys (trace (run Demo.env (@TryLock Demo.types Demo.st "ctx" "/locks/k" "me")
                             Demo.w0))
     = [["Lock"; "zone1"]].
Proof.
  split; [reflexivity | ].
  exact (proj1 (proj2 (proj2 (proj2 (proj2 (proj2 (proj2 (proj2
           (C2_lock_label_and_routing Demo.st Demo.env Demo.w0
              ("ctx" : @Ctx Demo.types) "/locks/k" "me" NonBlocking 0 eq_refl))))))))).
Defined.

Lemma C3_get_slot_count_restored :
  is_read Demo.get_missing = true
  /\ forall s, held (after (run Demo.env (invoke Demo.st Demo.get_missing) Demo.w0)) s
               = held Demo.w0 s.
Proof.
  split; [reflexivity | ].
  exact (proj2 (proj2 (C3_read_takes_and_returns_one_slot Demo.st Demo.env Demo.w0 _
                         Demo.get_missing eq_refl))).
Defined.

Lemma C4_cancelled_get_returns_cancellation :
  is_read Demo.get_cancelled = true
  /\ In (Refused 2%nat 1 Demo.canceled)
        (gate_view (trace (run Demo.env (invoke Demo.st Demo.get_cancelled) Demo.w0)))
  /\ returned (run Demo.env (invoke Demo.st Demo.get_cancelled) Demo.w0)
     = (None, None, Some Demo.canceled)
  /\ conn_calls (trace (run Demo.env (invoke Demo.st Demo.get_cancelled) Demo.w0)) = [].
Proof.
  split; [reflexivity | split; [left; reflexivity | ]].
  pose proof (C4_refused_read_returns_at_once Demo.st Demo.env Demo.w0 _
                Demo.get_cancelled 2%nat 1 Demo.canceled eq_refl
                (or_introl eq_refl)) as H.
  exact (conj (proj1 H) (proj1 (proj2 (proj2 H)))).
Defined.

(** C5, as first stated, fails on Watch: the failed Watch reaches the
    wrapped connection and returns its error, yet no increment of the error
    count is recorded. *)
Lemma C5_failed_watch_is_not_counted :
  ~ (conn_calls (trace Demo.failed_watch) <> [] ->
     result_error Demo.watch_missing (returned Demo.failed_watch) <> None ->
     error_adds (trace Demo.failed_watch) = [(["Watch"; "zone1"], 1)]).
Proof.
  intros H.
  assert (Hc : conn_calls (trace Demo.failed_watch) <> []) by (vm_compute; discriminate).
  assert (He : result_error Demo.watch_missing (returned Demo.failed_watch) <> None)
    by (vm_compute; discriminate).
  specialize (H Hc He). vm_compute in H. discriminate H.
Qed.

Lemma C5_failed_get_is_counted_once :
  conn_calls (trace (run Demo.env (invoke Demo.st Demo.get_missing) Demo.w0)) <> []
  /\ duration_keys (trace (run Demo.env (invoke Demo.st Demo.get_missing) Demo.w0))
     = [["Get"; "zone1"]]
  /\ error_adds (trace (run Demo.env (invoke Demo.st Demo.get_missing) Demo.w0))
     = [(["Get"; "zone1"], 1)].
Proof.
  assert (Hc : conn_calls (trace (run Demo.env (invoke Demo.st Demo.get_missing) Demo.w0))
               <> []) by (intros H; discriminate H).
  pose proof (C5_one_duration_sample_and_counted_errors Demo.st Demo.env Demo.w0 _
                Demo.get_missing Hc) as H.
  split; [exact Hc | split; [exact (proj1 H) | ]].
  refine (proj1 (proj1 (proj2 (proj2 H)) eq_refl _)).
  intros He; discriminate He.
Defined.

Lemma C6_get_returns_v1_at_version_7 :
  conn_calls (trace (run Demo.env (invoke Demo.st Demo.get_ab) Demo.w0)) <> []
  /\ returned (run Demo.env (@Get Demo.types Demo.st "ctx" "/a/b") Demo.w0)
     = (Some [Byte.x76; Byte.x31], Some 7, None)
  /\ conn_calls (trace (run Demo.env (invoke Demo.st Demo.get_ab) Demo.w0))
     = [Occurred (conn_call 1%nat Demo.get_ab)
                 (Some [Byte.x76; Byte.x31], Some 7, None)].
Proof.
  assert (Hc : conn_calls (trace (run Demo.env (invoke Demo.st Demo.get_ab) Demo.w0))
               <> []) by (intros H; discriminate H).
  split; [exact Hc | split; [reflexivity | ]].
  exact (C6_passthrough Demo.st Demo.env Demo.w0 _ Demo.get_ab Hc).
Defined.

Lemma C7_watch_same_in_both_modes :
  is_admin Demo.watch_missing = true
  /\ run Demo.env (invoke (SetReadOnly Demo.st true) Demo.watch_missing) Demo.w0
     = run Demo.env (invoke (SetReadOnly Demo.st false) Demo.watch_missing) Demo.w0.
Proof.
  split; [reflexivity | ].
  exact (proj2 (proj2 (proj2 (proj2
           (C7_admin_operations_ungated Demo.st Demo.env Demo.w0 _
              Demo.watch_missing eq_refl))))).
Defined.

Lemma C9_fresh_wrapper_delegates_create :
  is_mutation Demo.create_ab = true
  /\ IsReadOnly (NewStatsConn "zone1" 1%nat 2%nat) = false
  /\ conn_calls (trace (run Demo.env
                          (invoke (NewStatsConn "zone1" 1%nat 2%nat) Demo.create_ab)
                          Demo.w0))
     = [Occurred (conn_call 1%nat Demo.create_ab) (Some 1, None)].
Proof.
  split; [reflexivity | ].
  pose proof (C9_new_wrapper_is_read_write "zone1" 1%nat 2%nat Demo.env Demo.w0 _
                Demo.create_ab eq_refl) as H.
  exact (conj (proj1 H) (proj1 (proj2 H))).
Defined.

Lemma C10_try_lock_refused_as_lock :
  readOnly Demo.ro = true
  /\ 5000000000 <> 0
  /\ returned (run Demo.env (@TryLock Demo.types Demo.ro "ctx" "/locks/k" "me") Demo.w0)
     = (None, Some (VtError Code_READ_ONLY
          "cannot perform Lock on /locks/k as the topology server connection is read-only")).
Proof.
  assert (Hnz : 5000000000 <> 0) by (intros H; discriminate H).
  split; [reflexivity | split; [exact Hnz | ]].
  exact (proj1 (C10_read_only_error_names_resolved_label Demo.ro Demo.env Demo.w0
                  ("ctx" : @Ctx Demo.types) "/locks/k" "me" 5000000000 eq_refl Hnz)).
Defined.

(** ** Further properties of the wrapper *)

Lemma counter_after_Add_other (m : gmap (list string) Z) (names k : list string)
    (v : Z) :
  k <> names -> counter (counters_Add m names v) k = counter m k.
Proof.
  intros Hne. unfold counter, counters_Add.
  rewrite lookup_insert_ne; [reflexivity | congruence].
Qed.

Section SingleCall.
Context `{TT : TopoTypes} {X : Type}.
Implicit Types (env : Outside X) (w : World X) (st : StatsConn).

(** No call, of any method, changes the slots held in any semaphore. *)
Lemma held_after_call st env w (R : Type) (m : ConnCall R) (s : SemRef) :
  held (after (run env (invoke st m) w)) s = held w s.
Proof.
  destruct m; unfold_methods; try (destruct (readOnly st)); cbn;
    repeat (ask_outside; cbn);
    first [reflexivity | apply held_restored].
Qed.

(** A call hands the duration sink one sample per call it makes on a
    wrapped connection, and the sink grows by as many. *)
Lemma timings_after_call st env w (R : Type) (m : ConnCall R) :
  let o := run env (invoke st m) w in
  length (duration_keys (trace o)) = length (conn_calls (trace o))
  /\ length (topoStatsConnTimings (after o))
     = (length (topoStatsConnTimings w) + length (conn_calls (trace o)))%nat.
Proof.
  destruct m; unfold_methods; try (destruct (readOnly st)); cbn;
    repeat (ask_outside; cbn);
    rewrite ?length_app; cbn; split; lia.
Qed.

(** What a call does to the error counts: it hands the sink no increment,
    or a single one, by one, under its own key and next to a returned
    error; so the count under that key stays or goes up by one, and every
    other count stays. *)
Lemma errors_after_call st env w (R : Type) (m : ConnCall R) :
  let o := run env (invoke st m) w in
  let key := [stats_label m; cell st] in
  (error_adds (trace o) = []
   \/ error_adds (trace o) = [(key, 1)] /\ result_error m (returned o) <> None)
  /\ (forall k, k <> key ->
      counter (topoStatsConnErrors (after o)) k = counter (topoStatsConnErrors w) k)
  /\ (counter (topoStatsConnErrors (after o)) key = counter (topoStatsConnErrors w) key
      \/ counter (topoStatsConnErrors (after o)) key
         = counter (topoStatsConnErrors w) key + 1
         /\ result_error m (returned o) <> None).
Proof.
  destruct m; unfold_methods; try (destruct (readOnly st)); cbn;
    repeat (ask_outside; cbn);
    (split;
     [ first [ left; reflexivity | right; split; [reflexivity | discriminate] ]
     | split;
       [ intros k Hk; first [reflexivity | apply counter_after_Add_other; exact Hk]
       | first [ left; reflexivity
               | right; split; [apply counter_after_Add | discriminate] ] ] ]).
Qed.

(** In read-only mode no call on the wrapped connection is a mutation. *)
Lemma read_only_call_makes_no_mutating_call st env w (R : Type) (m : ConnCall R) :
  readOnly st = true ->
  List.filter is_mutating_call (trace (run env (invoke st m) w)) = [].
Proof.
  intros Hro.
  destruct m; unfold_methods; rewrite ?Hro; cbn;
    repeat (ask_outside; cbn); reflexivity.
Qed.

End SingleCall.

Section MoreProperties.
Context `{TT : TopoTypes} {X : Type}.
Implicit Types (env : Outside X) (w : World X) (st : StatsConn).

(** X1. Only a read that was granted its slot records a read-wait sample:
    exactly one, under the call's key.  A refused read records none, and
    neither does any other method. *)
Theorem read_wait_sample_iff_granted st env w (R : Type) (m : ConnCall R) :
  let o := run env (invoke st m) w in
  let key := [stats_label m; cell st] in
  (is_read m = true -> conn_calls (trace o) <> [] ->
   readwait_keys (trace o) = [key]
   /\ exists d, topoStatsConnReadWaitTimings (after o)
                = (topoStatsConnReadWaitTimings w ++ [(key, d)])%list)
  /\ (is_read m = false \/ conn_calls (trace o) = [] ->
      readwait_keys (trace o) = []
      /\ topoStatsConnReadWaitTimings (after o) = topoStatsConnReadWaitTimings w).
Proof.
  destruct m; unfold_methods; try (destruct (readOnly st)); cbn;
    repeat (ask_outside; cbn);
    (split;
     [ intros Hr Hc; first [discriminate Hr | now elim Hc
                           | split; [reflexivity | eexists; reflexivity] ]
     | intros [Hr | Hc]; first [discriminate Hr | discriminate Hc
                               | split; reflexivity] ]).
Qed.

(** X2. The read-only flag does not bear on reads: ListDir, Get,
    GetVersion and List run the same, interaction for interaction, with the
    flag set as with the flag clear. *)
Theorem reads_ignore_read_only_flag st env w (R : Type) (m : ConnCall R) :
  is_read m = true ->
  (forall b : bool, invoke (SetReadOnly st b) m = invoke st m)
  /\ run env (invoke (SetReadOnly st true) m) w
     = run env (invoke (SetReadOnly st false) m) w.
Proof.
  intros Hm.
  destruct m; simpl in Hm; try discriminate Hm; split; reflexivity.
Qed.

(** X3. In every call that reaches the wrapped connection, the clock
    reading taken just before the delegated call is the start of the
    duration sample, and that sample is recorded after the call has
    answered: the time a read waited for its slot is not part of it. *)
Theorem duration_sample_spans_delegated_call st env w (R : Type) (m : ConnCall R) :
  let o := run env (invoke st m) w in
  conn_calls (trace o) <> [] ->
  exists (pre post : list Occ) (t : Time),
    trace o = (pre ++ Occurred time_Now t
                   :: Occurred (conn_call (conn st) (delegate m)) (returned o)
                   :: post)%list
    /\ In (Occurred (Timings_Record [stats_label m; cell st] t) tt) post
    /\ duration_keys pre = [].
Proof.
  destruct m; unfold_methods; try (destruct (readOnly st)); cbn;
    repeat (ask_outside; cbn);
    intros Hc; try (now elim Hc);
    first [ eexists [], _, _; split; [reflexivity | ]
          | eexists [_; _; _], _, _; split; [reflexivity | ] ];
    (split; [cbn; tauto | reflexivity]).
Qed.

(** X4. Create, Update, Delete and the four lock methods never wait on or
    release a semaphore, in either mode: their only interaction that shows
    in the gate view is the delegated call, if it is made. *)
Theorem mutations_bypass_semaphore st env w (R : Type) (m : ConnCall R) :
  is_mutation m = true ->
  let o := run env (invoke st m) w in
  (gate_view (trace o) = [] \/ gate_view (trace o) = [Delegated (conn st)])
  /\ (readOnly st = false -> gate_view (trace o) = [Delegated (conn st)])
  /\ held (after o) = held w.
Proof.
  intros Hm.
  destruct m; simpl in Hm; try discriminate Hm;
    unfold_methods; destruct (readOnly st); cbn;
    repeat (ask_outside; cbn);
    (split; [first [left; reflexivity | right; reflexivity]
            | split; [intros Hro; first [reflexivity | discriminate Hro]
                     | reflexivity]]).
Qed.

(** X5. No sequence of calls leaks a slot: after any number of calls of
    any methods on any wrappers, every semaphore holds as many slots as
    before the first. *)
Theorem no_slot_leak env (cs : list Invocation) w (s : SemRef) :
  held (fst (run_calls env cs w)) s = held w s.
Proof.
  revert w; induction cs as [| c cs IH]; intros w; [reflexivity | ].
  cbn [run_calls].
  destruct (run_calls env cs (after (run env (invoke (receiver c) (method c)) w)))
    as [w' tr] eqn:E.
  cbn [fst]. specialize (IH (after (run env (invoke (receiver c) (method c)) w))).
  rewrite E in IH; cbn [fst] in IH. rewrite IH.
  apply held_after_call.
Qed.

(** X6. Over any sequence of calls there is exactly one duration sample
    per call made on a wrapped connection, handed to the sink and held by
    it: calls refused by the read-only flag or by the semaphore leave no
    duration sample, and no delegated call goes unmeasured. *)
Theorem one_duration_sample_per_delegated_call env (cs : list Invocation) w :
  length (duration_keys (snd (run_calls env cs w)))
  = length (conn_calls (snd (run_calls env cs w)))
  /\ length (topoStatsConnTimings (fst (run_calls env cs w)))
     = (length (topoStatsConnTimings w)
        + length (conn_calls (snd (run_calls env cs w))))%nat.
Proof.
  revert w; induction cs as [| c cs IH]; intros w; [cbn; split; lia | ].
  cbn [run_calls].
  specialize (IH (after (run env (invoke (receiver c) (method c)) w))).
  destruct (run_calls env cs (after (run env (invoke (receiver c) (method c)) w)))
    as [w' tr].
  cbn [fst snd] in *. destruct IH as [IHt IHs].
  pose proof (timings_after_call (receiver c) env w _ (method c)) as [Ht Hs].
  unfold duration_keys, conn_calls in *.
  rewrite List.flat_map_app, List.filter_app, !length_app. lia.
Qed.

(** X7. A call hands the error sink at most one increment: by one, under
    its own key, and only when it returns an error.  So no error count
    but the one under the call's key changes, and that one by at most
    one. *)
Theorem error_count_moves_only_own_key st env w (R : Type) (m : ConnCall R) :
  let o := run env (invoke st m) w in
  let key := [stats_label m; cell st] in
  (error_adds (trace o) = []
   \/ error_adds (trace o) = [(key, 1)] /\ result_error m (returned o) <> None)
  /\ (forall k, k <> key ->
      counter (topoStatsConnErrors (after o)) k = counter (topoStatsConnErrors w) k)
  /\ (counter (topoStatsConnErrors (after o)) key = counter (topoStatsConnErrors w) key
      \/ counter (topoStatsConnErrors (after o)) key
         = counter (topoStatsConnErrors w) key + 1
         /\ result_error m (returned o) <> None).
Proof. exact (errors_after_call st env w R m). Qed.

(** X8. Error counts never go down: over any sequence of calls, the
    count under every key is at least what it was. *)
Theorem error_counts_never_decrease env (cs : list Invocation) w
    (k : list string) :
  counter (topoStatsConnErrors w) k
  <= counter (topoStatsConnErrors (fst (run_calls env cs w))) k.
Proof.
  revert w; induction cs as [| c cs IH]; intros w; [cbn; lia | ].
  cbn [run_calls].
  specialize (IH (after (run env (invoke (receiver c) (method c)) w))).
  destruct (run_calls env cs (after (run env (invoke (receiver c) (method c)) w)))
    as [w' tr].
  cbn [fst] in *.
  pose proof (errors_after_call (receiver c) env w _ (method c))
    as (_ & Hother & Hown).
  destruct (decide (k = [stats_label (method c); cell (receiver c)])) as [-> | Hne].
  - destruct Hown as [Heq | [Heq _]]; lia.
  - specialize (Hother k Hne). lia.
Qed.

(** X9. The course of a read that was granted its slot: clock, wait,
    read-wait sample from the first reading, clock again, the delegated
    call, the error count if the call failed, and then the deferred calls in
    reverse order of their registration: the duration sample first, the
    release of the slot last. *)
Theorem granted_read_sequence st env w (R : Type) (m : ConnCall R) :
  is_read m = true ->
  let o := run env (invoke st m) w in
  let key := [stats_label m; cell st] in
  conn_calls (trace o) <> [] ->
  exists (ctx : Ctx) (t1 t2 : Time),
    trace o
    = ([Occurred time_Now t1;
        Occurred (sem_Acquire (readSem st) ctx 1) None;
        Occurred (ReadWaitTimings_Record key t1) tt;
        Occurred time_Now t2;
        Occurred (conn_call (conn st) m) (returned o)]
       ++ match result_error m (returned o) with
          | Some _ => [Occurred (Errors_Add key 1) tt]
          | None => []
          end
       ++ [Occurred (Timings_Record key t2) tt;
           Occurred (sem_Release (readSem st) 1) tt])%list.
Proof.
  intros Hm.
  destruct m; simpl in Hm; try discriminate Hm; run_method;
    intros Hc; try (now elim Hc);
    eexists _, _, _; reflexivity.
Qed.

(** X10. Read-only mode keeps every write away from the store: whatever
    calls are made on wrappers whose flag is set, no Create, Update, Delete
    or lock call is made on a wrapped connection. *)
Theorem read_only_session_never_mutates env (cs : list Invocation) w :
  Forall (fun c => readOnly (receiver c) = true) cs ->
  List.filter is_mutating_call (snd (run_calls env cs w)) = [].
Proof.
  intros Hall; revert w; induction Hall as [| c cs Hc _ IH]; intros w;
    [reflexivity | ].
  cbn [run_calls].
  specialize (IH (after (run env (invoke (receiver c) (method c)) w))).
  destruct (run_calls env cs (after (run env (invoke (receiver c) (method c)) w)))
    as [w' tr].
  cbn [snd] in *.
  rewrite List.filter_app, IH.
  rewrite (read_only_call_makes_no_mutating_call (receiver c) env w _ (method c) Hc).
  reflexivity.
Qed.

End MoreProperties.

(** ** The further properties at work in the concrete setting *)

(** The session as a whole: five calls, three of which reach the store;
    the duration sink holds three samples, the error count of "Get" is one,
    and no slot stays taken. *)
Example session_outcome :
  let w := fst (run_calls Demo.env Demo.session Demo.w0) in
  List.map fst (topoStatsConnTimings w)
  = [["Get"; "zone1"]; ["Get"; "zone1"]; ["Watch"; "zone1"]]
  /\ List.map fst (topoStatsConnReadWaitTimings w)
     = [["Get"; "zone1"]; ["Get"; "zone1"]]
  /\ counter (topoStatsConnErrors w) ["Get"; "zone1"] = 1
  /\ counter (topoStatsConnErrors w) ["Watch"; "zone1"] = 0
  /\ held w 2%nat = 0.
Proof. vm_compute. repeat split. Qed.

Lemma get_ab_reaches_store :
  conn_calls (trace (run Demo.env (invoke Demo.st Demo.get_ab) Demo.w0)) <> [].
Proof. intros H; discriminate H. Defined.

Lemma read_wait_sample_of_get :
  is_read Demo.get_ab = true
  /\ conn_calls (trace (run Demo.env (invoke Demo.st Demo.get_ab) Demo.w0)) <> []
  /\ readwait_keys (trace (run Demo.env (invoke Demo.st Demo.get_ab) Demo.w0))
     = [["Get"; "zone1"]].
Proof.
  split; [reflexivity | split; [exact get_ab_reaches_store | ]].
  exact (proj1 (proj1 (read_wait_sample_iff_granted Demo.st Demo.env Demo.w0 _
                         Demo.get_ab) eq_refl get_ab_reaches_store)).
Defined.

Lemma get_runs_alike_in_both_modes :
  is_read Demo.get_ab = true
  /\ run Demo.env (invoke (SetReadOnly Demo.st true) Demo.get_ab) Demo.w0
     = run Demo.env (invoke (SetReadOnly Demo.st false) Demo.get_ab) Demo.w0.
Proof.
  split; [reflexivity | ].
  exact (proj2 (reads_ignore_read_only_flag Demo.st Demo.env Demo.w0 _
                  Demo.get_ab eq_refl)).
Defined.

Lemma duration_sample_of_get_starts_after_wait :
  conn_calls (trace (run Demo.env (invoke Demo.st Demo.get_ab) Demo.w0)) <> []
  /\ exists (pre post : list Occ) (t : Time),
       trace (run Demo.env (invoke Demo.st Demo.get_ab) Demo.w0)
       = (pre ++ Occurred time_Now t
              :: Occurred (conn_call (conn Demo.st) (delegate Demo.get_ab))
                          (returned (run Demo.env (invoke Demo.st Demo.get_ab) Demo.w0))
              :: post)%list
       /\ In (Occurred (Timings_Record [stats_label Demo.get_ab; cell Demo.st] t) tt)
             post
       /\ duration_keys pre = [].
Proof.
  split; [exact get_ab_reaches_store | ].
  exact (duration_sample_spans_delegated_call Demo.st Demo.env Demo.w0 _ Demo.get_ab
           get_ab_reaches_store).
Defined.

Lemma create_touches_no_semaphore :
  is_mutation Demo.create_ab = true
  /\ readOnly Demo.st = false
  /\ gate_view (trace (run Demo.env (invoke Demo.st Demo.create_ab) Demo.w0))
     = [Delegated 1%nat].
Proof.
  split; [reflexivity | split; [reflexivity | ]].
  exact (proj1 (proj2 (mutations_bypass_semaphore Demo.st Demo.env Demo.w0 _
                         Demo.create_ab eq_refl)) eq_refl).
Defined.

Lemma failed_get_leaves_lock_count :
  ["Lock"; "zone1"] <> [stats_label Demo.get_missing; cell Demo.st]
  /\ counter (topoStatsConnErrors
                (after (run Demo.env (invoke Demo.st Demo.get_missing) Demo.w0)))
             ["Lock"; "zone1"]
     = counter (topoStatsConnErrors Demo.w0) ["Lock"; "zone1"].
Proof.
  assert (Hne : ["Lock"; "zone1"] <> [stats_label Demo.get_missing; cell Demo.st])
    by (intros H; discriminate H).
  split; [exact Hne | ].
  exact (proj1 (proj2 (error_count_moves_only_own_key Demo.st Demo.env Demo.w0 _
                         Demo.get_missing)) ["Lock"; "zone1"] Hne).
Defined.

Lemma granted_get_sequence :
  is_read Demo.get_ab = true
  /\ conn_calls (trace (run Demo.env (invoke Demo.st Demo.get_ab) Demo.w0)) <> []
  /\ exists (ctx : @Ctx Demo.types) (t1 t2 : Time),
       trace (run Demo.env (invoke Demo.st Demo.get_ab) Demo.w0)
       = ([Occurred time_Now t1;
           Occurred (sem_Acquire (readSem Demo.st) ctx 1) None;
           Occurred (ReadWaitTimings_Record [stats_label Demo.get_ab; cell Demo.st] t1) tt;
           Occurred time_Now t2;
           Occurred (conn_call (conn Demo.st) Demo.get_ab)
                    (returned (run Demo.env (invoke Demo.st Demo.get_ab) Demo.w0))]
          ++ match result_error Demo.get_ab
                     (returned (run Demo.env (invoke Demo.st Demo.get_ab) Demo.w0)) with
             | Some _ => [Occurred (Errors_Add [stats_label Demo.get_ab; cell Demo.st] 1) tt]
             | None => []
             end
          ++ [Occurred (Timings_Record [stats_label Demo.get_ab; cell Demo.st] t2) tt;
              Occurred (sem_Release (readSem Demo.st) 1) tt])%list.
Proof.
  split; [reflexivity | split; [exact get_ab_reaches_store | ]].
  exact (granted_read_sequence Demo.st Demo.env Demo.w0 _ Demo.get_ab eq_refl
           get_ab_reaches_store).
Defined.

Lemma read_only_session_reaches_store_without_writes :
  Forall (fun c => readOnly (receiver c) = true) Demo.ro_session
  /\ List.filter is_mutating_call (snd (run_calls Demo.env Demo.ro_session Demo.w0)) = []
  /\ length (conn_calls (snd (run_calls Demo.env Demo.ro_session Demo.w0))) = 2%nat.
Proof.
  assert (Hall : Forall (fun c => readOnly (receiver c) = true) Demo.ro_session)
    by (repeat constructor).
  split; [exact Hall | split; [ | reflexivity]].
  exact (read_only_session_never_mutates Demo.env Demo.ro_session Demo.w0 Hall).
Defined.

